(** * A shallow embedding of [examples/agents/python-agent.py]

    The agent drives the MCP command-line tool in three phases
    (discover, load schemas, execute).  Every phase builds a command
    string, hands it to [_exec_mcp], which runs it and parses the
    captured stdout as JSON, and then inspects the resulting Python value
    dynamically ([.get], subscripts, truthiness, [len], iteration).  The
    development models those Python operations on JSON values, with the
    Python exceptions they raise, and threads the list of commands
    issued so far through a small state-and-exception monad.

    Strings are Stdlib [string]s: Python [str] values restricted to code
    points below 256.  Progress messages printed to stderr are not
    modelled; every expression evaluated for them that can raise is. *)

From Stdlib Require Import String Ascii List ZArith QArith Bool Lia.
From Stdlib Require Import DecimalString.
Import ListNotations.
#[local] Set Warnings "-register-all".

Local Open Scope string_scope.

(** ** JSON values as [json.loads] produces them *)

(** [JObj] lists the entries of a Python [dict] in insertion order. *)
Inductive json : Type :=
| JNull
| JBool (b : bool)
| JInt (z : Z)
| JFloat (q : Q)
| JStr (s : string)
| JArr (l : list json)
| JObj (kvs : list (string * json)).

(** Python exceptions, each with the text [str(e)] gives. *)
Inductive exn : Type :=
| ValueError (msg : string)
| RuntimeError (msg : string)
| TypeError (msg : string)
| KeyError (msg : string)
| AttributeError (msg : string)
| IndexError (msg : string).

Definition exn_str (e : exn) : string :=
  match e with
  | ValueError m | RuntimeError m | TypeError m
  | KeyError m | AttributeError m | IndexError m => m
  end.

Inductive res (A : Type) : Type :=
| Ok (a : A)
| Err (e : exn).
Arguments Ok {A} a.
Arguments Err {A} e.

Definition res_bind {A B} (r : res A) (f : A -> res B) : res B :=
  match r with Ok a => f a | Err e => Err e end.

Notation "x <-? r ;; k" := (res_bind r (fun x => k))
  (at level 61, r at next level, right associativity).

(** ** Small conversions *)

Definition string_of_Z (z : Z) : string :=
  NilZero.string_of_int (Z.to_int z).

(** The double-quote and backslash characters. *)
Definition dq : ascii := ascii_of_nat 34.
Definition bs : ascii := ascii_of_nat 92.
Definition dq_s : string := String dq EmptyString.

Definition string_of_nat (n : nat) : string := string_of_Z (Z.of_nat n).

Fixpoint join (sep : string) (l : list string) : string :=
  match l with
  | [] => EmptyString
  | [x] => x
  | x :: rest => x ++ sep ++ join sep rest
  end.

(** ** Commands issued so far, and Python exceptions *)

(** A computation reads and extends the list of full command lines run so
    far, and returns a value or raises. *)
Definition M (A : Type) : Type := list string -> res A * list string.

Definition ret {A} (a : A) : M A := fun tr => (Ok a, tr).
Definition raise {A} (e : exn) : M A := fun tr => (Err e, tr).
Definition lift {A} (r : res A) : M A := fun tr => (r, tr).
Definition bind {A B} (m : M A) (f : A -> M B) : M B :=
  fun tr => match m tr with
            | (Ok a, tr') => f a tr'
            | (Err e, tr') => (Err e, tr')
            end.

Notation "x <- m ;; k" := (bind m (fun x => k))
  (at level 61, m at next level, right associativity).

Section Agent.

(** Python's [repr] of a float (used by [str()] and [json.dumps]), and
    [str()] of a list or dict (Python literal syntax); both are runtime
    primitives the agent never defines. *)
Variable float_repr : Q -> string.
Variable container_str : json -> string.

Definition type_name (v : json) : string :=
  match v with
  | JNull => "NoneType" | JBool _ => "bool" | JInt _ => "int"
  | JFloat _ => "float" | JStr _ => "str" | JArr _ => "list"
  | JObj _ => "dict"
  end.

(** [bool(v)] *)
Definition truthy (v : json) : bool :=
  match v with
  | JNull => false
  | JBool b => b
  | JInt z => negb (Z.eqb z 0)
  | JFloat q => negb (Z.eqb (Qnum q) 0)
  | JStr s => negb (String.eqb s EmptyString)
  | JArr l => negb (Nat.eqb (length l) 0)
  | JObj kvs => negb (Nat.eqb (length kvs) 0)
  end.

(** [str(v)], as an f-string field formats it. *)
Definition py_str (v : json) : string :=
  match v with
  | JNull => "None"
  | JBool true => "True"
  | JBool false => "False"
  | JInt z => string_of_Z z
  | JFloat q => float_repr q
  | JStr s => s
  | JArr _ | JObj _ => container_str v
  end.

Fixpoint assoc (k : string) (kvs : list (string * json)) : option json :=
  match kvs with
  | [] => None
  | (k', v) :: rest => if String.eqb k k' then Some v else assoc k rest
  end.

(** [v.get(k, default)]: only dicts have [.get]. *)
Definition get (v : json) (k : string) (default : json) : res json :=
  match v with
  | JObj kvs => Ok (match assoc k kvs with Some x => x | None => default end)
  | _ => Err (AttributeError ("'" ++ type_name v ++ "' object has no attribute 'get'"))
  end.

(** [v[k]] with a string key. *)
Definition subscript (v : json) (k : string) : res json :=
  match v with
  | JObj kvs =>
      match assoc k kvs with
      | Some x => Ok x
      | None => Err (KeyError ("'" ++ k ++ "'"))
      end
  | JArr _ => Err (TypeError "list indices must be integers or slices, not str")
  | JStr _ => Err (TypeError "string indices must be integers, not 'str'")
  | _ => Err (TypeError ("'" ++ type_name v ++ "' object is not subscriptable"))
  end.

(** [v[0]] *)
Definition index0 (v : json) : res json :=
  match v with
  | JArr (x :: _) => Ok x
  | JArr [] => Err (IndexError "list index out of range")
  | JStr (String c _) => Ok (JStr (String c EmptyString))
  | JStr EmptyString => Err (IndexError "string index out of range")
  | JObj kvs => Err (KeyError "0")
  | _ => Err (TypeError ("'" ++ type_name v ++ "' object is not subscriptable"))
  end.

(** [len(v)] *)
Definition py_len (v : json) : res nat :=
  match v with
  | JStr s => Ok (String.length s)
  | JArr l => Ok (length l)
  | JObj kvs => Ok (length kvs)
  | _ => Err (TypeError ("object of type '" ++ type_name v ++ "' has no len()"))
  end.

Fixpoint chars (s : string) : list json :=
  match s with
  | EmptyString => []
  | String c rest => JStr (String c EmptyString) :: chars rest
  end.

(** The items [for x in v] visits: list elements, characters of a
    string, keys of a dict. *)
Definition py_iter (v : json) : res (list json) :=
  match v with
  | JArr l => Ok l
  | JStr s => Ok (chars s)
  | JObj kvs => Ok (map (fun kv => JStr (fst kv)) kvs)
  | _ => Err (TypeError ("'" ++ type_name v ++ "' object is not iterable"))
  end.

(** The items of [sep.join(v)], counted from [i]: every one must be a [str]. *)
Fixpoint join_items (i : nat) (l : list json) : res (list string) :=
  match l with
  | [] => Ok []
  | JStr s :: rest => r <-? join_items (S i) rest ;; Ok (s :: r)
  | x :: _ => Err (TypeError ("sequence item " ++ string_of_nat i
                    ++ ": expected str instance, " ++ type_name x ++ " found"))
  end.

(** [sep.join(v)] *)
Definition py_join (sep : string) (v : json) : res string :=
  match py_iter v with
  | Err _ => Err (TypeError "can only join an iterable")
  | Ok items => r <-? join_items 0%nat items ;; Ok (join sep r)
  end.

(** Numeric value of a number or bool ([True == 1 == 1.0] in Python). *)
Definition num_of (v : json) : option Q :=
  match v with
  | JBool b => Some (if b then 1 else 0)%Q
  | JInt z => Some (inject_Z z)
  | JFloat q => Some q
  | _ => None
  end.

(** [a == b] on JSON values. *)
Fixpoint py_eq (a b : json) : bool :=
  match a, b with
  | JNull, JNull => true
  | JStr x, JStr y => String.eqb x y
  | JArr xs, JArr ys =>
      (fix go (xs ys : list json) : bool :=
         match xs, ys with
         | [], [] => true
         | x :: xs', y :: ys' => py_eq x y && go xs' ys'
         | _, _ => false
         end) xs ys
  | JObj xs, JObj ys =>
      Nat.eqb (length xs) (length ys) &&
      forallb (fun kv => match assoc (fst kv) ys with
                         | Some y => py_eq (snd kv) y
                         | None => false
                         end) xs
  | _, _ =>
      match num_of a, num_of b with
      | Some p, Some q => Qeq_bool p q
      | _, _ => false
      end
  end.

(** *** [json.dumps] with its default settings ([ensure_ascii=True],
    separators [", "] and [": "]) *)

Definition hex_digit (n : nat) : ascii :=
  if Nat.ltb n 10 then ascii_of_nat (48 + n) else ascii_of_nat (87 + n).

Definition json_escape_char (c : ascii) : string :=
  let n := nat_of_ascii c in
  if Ascii.eqb c dq then String bs (String dq EmptyString)
  else if Ascii.eqb c bs then String bs (String bs EmptyString)
  else if Nat.eqb n 8 then "\b"
  else if Nat.eqb n 12 then "\f"
  else if Nat.eqb n 10 then "\n"
  else if Nat.eqb n 13 then "\r"
  else if Nat.eqb n 9 then "\t"
  else if Nat.leb 32 n && Nat.leb n 126 then String c EmptyString
  else "\u00" ++ String (hex_digit (n / 16)) (String (hex_digit (n mod 16)) EmptyString).

Fixpoint json_escape (s : string) : string :=
  match s with
  | EmptyString => EmptyString
  | String c rest => json_escape_char c ++ json_escape rest
  end.

Definition dumps_str (s : string) : string := dq_s ++ json_escape s ++ dq_s.

Fixpoint dumps (v : json) : string :=
  match v with
  | JNull => "null"
  | JBool true => "true"
  | JBool false => "false"
  | JInt z => string_of_Z z
  | JFloat q => float_repr q
  | JStr s => dumps_str s
  | JArr l => "[" ++ join ", " (map dumps l) ++ "]"
  | JObj kvs =>
      "{" ++ join ", " (map (fun kv => dumps_str (fst kv) ++ ": " ++ dumps (snd kv)) kvs) ++ "}"
  end.

(** [s.replace(q, bq)], q the double-quote character and bq a backslash
    followed by it. *)
Fixpoint escape_quotes (s : string) : string :=
  match s with
  | EmptyString => EmptyString
  | String c rest =>
      if Ascii.eqb c dq then String bs (String dq (escape_quotes rest))
      else String c (escape_quotes rest)
  end.

(** Reading such text back: a backslash followed by a double quote stands
    for the double quote. *)
Fixpoint unescape_quotes (s : string) : string :=
  match s with
  | String c rest =>
      match rest with
      | String d rest' =>
          if Ascii.eqb c bs && Ascii.eqb d dq then String dq (unescape_quotes rest')
          else String c (unescape_quotes rest)
      | EmptyString => s
      end
  | EmptyString => EmptyString
  end.

(** Every double quote of [s] directly follows a backslash ([prev] is the
    character before [s]). *)
Fixpoint no_bare_quote (prev : ascii) (s : string) : bool :=
  match s with
  | EmptyString => true
  | String c rest => (negb (Ascii.eqb c dq) || Ascii.eqb prev bs) && no_bare_quote c rest
  end.



(** ** The two regular expressions of [infer_arguments] *)

Fixpoint strip_prefix (p s : string) : option string :=
  match p, s with
  | EmptyString, _ => Some s
  | String a p', String b s' => if Ascii.eqb a b then strip_prefix p' s' else None
  | String _ _, EmptyString => None
  end.

(** The class [\s] of a [str] pattern: Unicode whitespace. *)
Definition is_space (c : ascii) : bool :=
  let n := nat_of_ascii c in
  (Nat.leb 9 n && Nat.leb n 13) || (Nat.leb 28 n && Nat.leb n 32)
  || Nat.eqb n 133 || Nat.eqb n 160.

(** The longest prefix of non-whitespace characters ([[^\s]+], greedy). *)
Fixpoint span_nonspace (s : string) : string :=
  match s with
  | EmptyString => EmptyString
  | String c rest => if is_space c then EmptyString else String c (span_nonspace rest)
  end.

(** [https?://[^\s]+] anchored at the start of [s]: the optional [s] is
    tried present first, then absent. *)
Definition url_at (s : string) : option string :=
  let attempt (p : string) :=
    match strip_prefix p s with
    | Some after =>
        match span_nonspace after with
        | EmptyString => None
        | run => Some (p ++ run)
        end
    | None => None
    end in
  match attempt "https://" with
  | Some m => Some m
  | None => attempt "http://"
  end.

(** [re.search(r"https?://[^\s]+", task)]: the leftmost match, its text. *)
Fixpoint search_url (s : string) : option string :=
  match url_at s with
  | Some m => Some m
  | None =>
      match s with
      | EmptyString => None
      | String _ rest => search_url rest
      end
  end.

Definition is_quote (c : ascii) : bool := Ascii.eqb c dq || Ascii.eqb c "'"%char.

(** The longest prefix without quote characters, and what follows it. *)
Fixpoint span_nonquote (s : string) : string * string :=
  match s with
  | EmptyString => (EmptyString, EmptyString)
  | String c rest =>
      if is_quote c then (EmptyString, s)
      else let (run, after) := span_nonquote rest in (String c run, after)
  end.

(** The search for a quote, a non-empty run of non-quote characters and a
    quote (either kind of quote at either end), returning the run: group 1
    of the leftmost match.  At a given quote the greedy run stops at the
    next quote or at the end, and no shorter run can be followed by a
    quote, so the match there exists iff the run is non-empty and a quote
    follows it. *)
Fixpoint search_quoted (s : string) : option string :=
  match s with
  | EmptyString => None
  | String c rest =>
      if is_quote c then
        match span_nonquote rest with
        | (String _ _ as run, String _ _) => Some run
        | _ => search_quoted rest
        end
      else search_quoted rest
  end.

(** Every character of [s] satisfies [p]. *)
Fixpoint all_chars (p : ascii -> bool) (s : string) : bool :=
  match s with
  | EmptyString => true
  | String c rest => p c && all_chars p rest
  end.

(** What may follow a greedy [[^\s]+] run: the end of the text or a
    whitespace character. *)
Definition ends_run (post : string) : Prop :=
  post = EmptyString \/ exists c post', post = String c post' /\ is_space c = true.

(** ** [MCPAgent.infer_arguments]

    The [schema] argument is not read by the method. *)
Definition infer_arguments (tool_name : json) (schema : json) (task : string)
  : list (string * json) :=
  if py_eq tool_name (JStr "browser_navigate") then
    [("url", JStr (match search_url task with
                   | Some u => u
                   | None => "https://example.com"
                   end))]
  else if py_eq tool_name (JStr "browser_screenshot") then
    [("filename", JStr "screenshot.png"); ("fullPage", JBool true)]
  else if py_eq tool_name (JStr "read_file") then
    [("path", JStr (match search_quoted task with
                    | Some p => p
                    | None => "README.md"
                    end))]
  else [].

(** ** [MCPAgent._exec_mcp]: the command gateway *)

Record MCPAgent := { mcp_command : string }.

Definition default_agent : MCPAgent :=
  {| mcp_command := "deno run --allow-all src/cli.ts" |}.

(** What [subprocess.run(..., shell=True, capture_output=True,
    check=False)] gives: the captured streams and exit status, or an
    exception (with its text) when the process cannot be run. *)
Inductive proc_outcome : Type :=
| ProcDone (stdout stderr : string) (returncode : Z)
| ProcRaised (msg : string).

(** The external command runner, and [json.loads] ([None] when it raises
    [JSONDecodeError]). *)
Variable run : string -> proc_outcome.
Variable json_loads : string -> option json.

Definition full_command (self : MCPAgent) (command : string) : string :=
  mcp_command self ++ " " ++ command.

Definition _exec_mcp (self : MCPAgent) (command : string) : M json :=
  fun tr =>
    let full := full_command self command in
    let tr' := (tr ++ [full])%list in
    match run full with
    | ProcRaised msg => (Err (RuntimeError ("Failed to execute MCP command: " ++ msg)), tr')
    | ProcDone stdout _ _ =>
        match json_loads stdout with
        | Some v => (Ok v, tr')
        | None => (Err (ValueError ("Failed to parse MCP response: " ++ stdout)), tr')
        end
    end.

(** ** Reading a phase response *)

(** The check every phase makes (inline in the source):
    [if not response.get("success"): error = response.get("error", {});
     raise RuntimeError(label + str(error.get("message", "Unknown error")))]. *)
Definition fail_unless_success (label : string) (response : json) : M unit :=
  success <- lift (get response "success" JNull) ;;
  if truthy success then ret tt
  else
    error <- lift (get response "error" (JObj [])) ;;
    msg <- lift (get error "message" (JStr "Unknown error")) ;;
    raise (RuntimeError (label ++ py_str msg)).

(** [response.get("metadata", {}).get(key, "unknown")], evaluated for
    the progress message. *)
Definition metadata_get (response : json) (key : string) : res json :=
  m <-? get response "metadata" (JObj []) ;;
  get m key (JStr "unknown").

(** ** Phase 1: [MCPAgent.discover] *)

Definition discover_command (task : string) : string :=
  "discover " ++ dq_s ++ task ++ dq_s.

Definition discover (self : MCPAgent) (task : string) : M json :=
  response <- _exec_mcp self (discover_command task) ;;
  _ <- fail_unless_success "Discovery failed: " response ;;
  result <- lift (get response "data" (JObj [])) ;;
  matches <- lift (get result "matches" (JArr [])) ;;
  _ <- lift (py_len matches) ;;
  sb <- lift (get result "suggested_batch" JNull) ;;
  _ <- (if truthy sb then
          batch <- lift (subscript result "suggested_batch") ;;
          _ <- lift (subscript batch "server") ;;
          ops <- lift (subscript batch "operations") ;;
          _ <- lift (py_len ops) ;;
          ret tt
        else ret tt) ;;
  _ <- lift (metadata_get response "tokensEstimate") ;;
  ret result.

(** ** Phase 2: [MCPAgent.load_schemas] *)

Definition schema_command (server : json) (tool_list : string) : string :=
  "tools schema " ++ py_str server ++ " " ++ tool_list.

(** [data if isinstance(data, list) else [data]] *)
Definition normalize_schemas (data : json) : list json :=
  match data with
  | JArr l => l
  | _ => [data]
  end.

Definition load_schemas (self : MCPAgent) (server tools : json) : M (list json) :=
  _ <- lift (py_len tools) ;;
  tool_list <- lift (py_join " " tools) ;;
  response <- _exec_mcp self (schema_command server tool_list) ;;
  _ <- fail_unless_success "Schema loading failed: " response ;;
  data <- lift (get response "data" JNull) ;;
  let schemas := normalize_schemas data in
  _ <- lift (metadata_get response "tokensEstimate") ;;
  ret schemas.

(** ** Phase 3: [MCPAgent.exec_tool] and [MCPAgent.batch] *)

Definition exec_command (server tool : json) (args : list (string * json)) : string :=
  let args_json := escape_quotes (dumps (JObj args)) in
  "tools exec " ++ py_str server ++ " " ++ py_str tool ++ " --args "
  ++ dq_s ++ args_json ++ dq_s.

Definition exec_tool (self : MCPAgent) (server tool : json) (args : list (string * json))
  : M json :=
  response <- _exec_mcp self (exec_command server tool args) ;;
  _ <- fail_unless_success "Execution failed: " response ;;
  _ <- lift (metadata_get response "executionTime") ;;
  lift (get response "data" JNull).

Definition tx_flag (transactional : bool) : string :=
  if transactional then "--transactional" else EmptyString.

Definition batch_command (server : json) (operations : list json) (transactional : bool)
  : string :=
  let ops_json := escape_quotes (dumps (JArr operations)) in
  "tools batch " ++ py_str server ++ " " ++ tx_flag transactional ++ " --operations "
  ++ dq_s ++ ops_json ++ dq_s.

Definition batch (self : MCPAgent) (server : json) (operations : list json)
  (transactional : bool) : M json :=
  response <- _exec_mcp self (batch_command server operations transactional) ;;
  _ <- fail_unless_success "Batch execution failed: " response ;;
  _ <- lift (metadata_get response "executionTime") ;;
  lift (get response "data" JNull).

(** ** [MCPAgent.execute_task] *)

(** [next((s for s in schemas if s["name"] == tool_name), None)] *)
Fixpoint find_schema (schemas : list json) (tool_name : json) : res json :=
  match schemas with
  | [] => Ok JNull
  | s :: rest =>
      name <-? subscript s "name" ;;
      if py_eq name tool_name then Ok s else find_schema rest tool_name
  end.

(** The loop building [batch_ops]. *)
Fixpoint build_batch_ops (task : string) (schemas operations : list json)
  : res (list json) :=
  match operations with
  | [] => Ok []
  | tool_name :: rest =>
      schema <-? find_schema schemas tool_name ;;
      let args := infer_arguments tool_name schema task in
      ops <-? build_batch_ops task schemas rest ;;
      Ok (JObj [("tool", tool_name); ("args", JObj args)] :: ops)
  end.

Definition no_match_error : exn := RuntimeError "No matching tools found for the task".

Definition execute_task (self : MCPAgent) (task : string) : M json :=
  discovery <- discover self task ;;
  matches <- lift (get discovery "matches" (JArr [])) ;;
  if negb (truthy matches) then raise no_match_error
  else
    suggested_batch <- lift (get discovery "suggested_batch" JNull) ;;
    if truthy suggested_batch then
      server <- lift (subscript suggested_batch "server") ;;
      operations <- lift (subscript suggested_batch "operations") ;;
      _ <- lift (py_len operations) ;;
      schemas <- load_schemas self server operations ;;
      items <- lift (py_iter operations) ;;
      batch_ops <- lift (build_batch_ops task schemas items) ;;
      batch self server batch_ops false
    else
      top_match <- lift (index0 matches) ;;
      _ <- lift (subscript top_match "confidence") ;;
      server <- lift (subscript top_match "server") ;;
      tool <- lift (subscript top_match "tool") ;;
      schemas <- load_schemas self server (JArr [tool]) ;;
      schema0 <- lift (index0 (JArr schemas)) ;;
      let args := infer_arguments tool schema0 task in
      exec_tool self server tool args.

(** ** [main] *)

(** What the process ends with: the usage text, the result printed as
    indented JSON, or the error text [str(e)] printed to stderr. *)
Inductive main_outcome : Type :=
| Usage
| Printed (result : json)
| Failed (message : string).

(** The argument of [sys.exit]. *)
Definition exit_status (o : main_outcome) : Z :=
  match o with
  | Printed _ => 0
  | Usage | Failed _ => 1
  end.

Definition main (argv : list string) : M main_outcome :=
  fun tr =>
    match argv with
    | _ :: task :: _ =>
        match execute_task default_agent task tr with
        | (Ok result, tr') => (Ok (Printed result), tr')
        | (Err e, tr') => (Ok (Failed (exn_str e)), tr')
        end
    | _ => (Ok Usage, tr)
    end.


(** ** Scenarios used below *)

Definition task_A : string := "read the file 'notes.txt'".

Definition match_A : json :=
  JObj [("server", JStr "fs"); ("tool", JStr "read_file"); ("confidence", JFloat (9 # 10))].

(** A discovery response with exactly one match and no suggested batch. *)
Definition discovery_A : json :=
  JObj [("success", JBool true); ("data", JObj [("matches", JArr [match_A])])].

Definition args_A : list (string * json) := [("path", JStr "notes.txt")].


(** The argument mappings [infer_arguments] gives when the task text
    has no URL and no quoted text. *)
Definition default_arguments : list (list (string * json)) :=
  [ [];
    [("url", JStr "https://example.com")];
    [("filename", JStr "screenshot.png"); ("fullPage", JBool true)];
    [("path", JStr "README.md")] ].


(** Concrete scripted backends for the runs below: the output of a
    command names its phase, and [scripted_loads] maps each name to the
    response of that phase. *)
Definition route (c : string) : string :=
  if prefix (full_command default_agent "discover ") c then "discover"
  else if prefix (full_command default_agent "tools schema ") c then "schema"
  else "execute".

Definition scripted_run (c : string) : proc_outcome := ProcDone (route c) EmptyString 0.

Definition scripted_loads (disc sch ex : json) (out : string) : option json :=
  if String.eqb out "discover" then Some disc
  else if String.eqb out "schema" then Some sch
  else if String.eqb out "execute" then Some ex
  else None.

(** Stand-ins for Python's float [repr] and container [str] in concrete
    runs: no float and no container is formatted into a command there. *)
Definition float_repr_stub (q : Q) : string := string_of_Z (Qnum q).
Definition container_str_stub (v : json) : string := type_name v.

Definition schema_read_file : json :=
  JObj [("success", JBool true);
        ("data", JObj [("name", JStr "read_file"); ("parameters", JObj [])])].

Definition schema_none : json := JObj [("success", JBool true); ("data", JArr [])].

Definition exec_done : json := JObj [("success", JBool true); ("data", JStr "contents")].

Definition browser_batch : json :=
  JObj [("server", JStr "browser");
        ("operations", JArr [JStr "browser_navigate"; JStr "browser_screenshot"])].

Definition task_B : string := "open https://example.org and take a screenshot".

Definition match_B : json :=
  JObj [("server", JStr "browser"); ("tool", JStr "browser_navigate");
        ("confidence", JFloat (8 # 10))].

(** Discovery responses with a suggested batch, with and without matches. *)
Definition discovery_B : json :=
  JObj [("success", JBool true);
        ("data", JObj [("matches", JArr [match_B]); ("suggested_batch", browser_batch)])].

Definition discovery_B_no_match : json :=
  JObj [("success", JBool true);
        ("data", JObj [("matches", JArr []); ("suggested_batch", browser_batch)])].

Definition schemas_browser : json :=
  JObj [("success", JBool true);
        ("data", JArr [JObj [("name", JStr "browser_navigate")];
                       JObj [("name", JStr "browser_screenshot")]])].

(** ** Reasoning about [M] *)

Lemma bind_ok {A B} (m : M A) (f : A -> M B) tr a tr' :
  m tr = (Ok a, tr') -> bind m f tr = f a tr'.
Proof. intros H. unfold bind. rewrite H. reflexivity. Qed.

Lemma bind_err {A B} (m : M A) (f : A -> M B) tr e tr' :
  m tr = (Err e, tr') -> bind m f tr = (Err e, tr').
Proof. intros H. unfold bind. rewrite H. reflexivity. Qed.

Lemma bind_lift_ok {A B} (r : res A) (f : A -> M B) tr a :
  r = Ok a -> bind (lift r) f tr = f a tr.
Proof. intros ->. reflexivity. Qed.

Lemma exec_mcp_done self command tr out err rc :
  run (full_command self command) = ProcDone out err rc ->
  _exec_mcp self command tr =
  (match json_loads out with
   | Some v => Ok v
   | None => Err (ValueError ("Failed to parse MCP response: " ++ out))
   end, (tr ++ [full_command self command])%list).
Proof.
  intros H. unfold _exec_mcp. cbv zeta. rewrite H.
  destruct (json_loads out); reflexivity.
Qed.

Lemma join_items_strs i names : join_items i (map JStr names) = Ok names.
Proof.
  revert i. induction names as [|n names IH]; intros i; [reflexivity|].
  simpl. rewrite IH. reflexivity.
Qed.

Lemma py_join_strs sep names : py_join sep (JArr (map JStr names)) = Ok (join sep names).
Proof. unfold py_join. simpl. rewrite join_items_strs. reflexivity. Qed.

Ltac step H := first [ rewrite (bind_ok _ _ _ _ _ H)
                     | rewrite (bind_lift_ok _ _ _ _ H) ]; cbv beta.

(** The batch branch of [execute_task], entered after discovery. *)
Lemma execute_task_batch_branch self task tr result tr1 matches sb server names :
  discover self task tr = (Ok result, tr1) ->
  get result "matches" (JArr []) = Ok matches -> truthy matches = true ->
  get result "suggested_batch" JNull = Ok sb -> truthy sb = true ->
  subscript sb "server" = Ok server ->
  subscript sb "operations" = Ok (JArr (map JStr names)) ->
  execute_task self task tr =
  (schemas <- load_schemas self server (JArr (map JStr names)) ;;
   batch_ops <- lift (build_batch_ops task schemas (map JStr names)) ;;
   batch self server batch_ops false) tr1.
Proof.
  intros Hd Hm Htm Hsb Htsb Hsrv Hops.
  unfold execute_task. step Hd. step Hm. rewrite Htm. cbn [negb].
  step Hsb. rewrite Htsb. step Hsrv. step Hops. reflexivity.
Qed.

(** The single-tool branch of [execute_task], entered after discovery. *)
Lemma execute_task_single_branch self task tr result tr1 top rest sb conf server tool :
  discover self task tr = (Ok result, tr1) ->
  get result "matches" (JArr []) = Ok (JArr (top :: rest)) ->
  get result "suggested_batch" JNull = Ok sb -> truthy sb = false ->
  subscript top "confidence" = Ok conf ->
  subscript top "server" = Ok server ->
  subscript top "tool" = Ok tool ->
  execute_task self task tr =
  (schemas <- load_schemas self server (JArr [tool]) ;;
   schema0 <- lift (index0 (JArr schemas)) ;;
   exec_tool self server tool (infer_arguments tool schema0 task)) tr1.
Proof.
  intros Hd Hm Hsb Htsb Hc Hsrv Htool.
  unfold execute_task. step Hd. step Hm. cbn [truthy negb length Nat.eqb].
  step Hsb. rewrite Htsb. cbn [index0]. step (eq_refl (Ok top)).
  step Hc. step Hsrv. step Htool. reflexivity.
Qed.

Lemma subscript_ok_truthy v k x : subscript v k = Ok x -> truthy v = true.
Proof.
  destruct v; simpl; try discriminate.
  destruct kvs; simpl; [discriminate | reflexivity].
Qed.

Ltac atomic_scrutinee x :=
  lazymatch x with
  | get _ _ _ => idtac | subscript _ _ => idtac | py_len _ => idtac
  | metadata_get _ _ => idtac | truthy _ => idtac | json_loads _ => idtac
  | run _ => idtac | assoc _ _ => idtac
  end.

Ltac split_matches :=
  repeat (cbn beta iota zeta;
          match goal with
          | |- context [match ?x with _ => _ end] => atomic_scrutinee x; destruct x
          end).

Lemma exec_mcp_trace self command tr :
  snd (_exec_mcp self command tr) = (tr ++ [full_command self command])%list.
Proof. unfold _exec_mcp. cbv zeta. split_matches; reflexivity. Qed.

Lemma fail_unless_success_trace label response tr :
  snd (fail_unless_success label response tr) = tr.
Proof.
  unfold fail_unless_success, bind, lift, ret, raise. split_matches; reflexivity.
Qed.

(** A call that reads one response: it runs exactly one command. *)
Lemma one_call_trace self command (k : json -> M json) tr :
  (forall r tr', snd (k r tr') = tr') ->
  snd (bind (_exec_mcp self command) k tr) = (tr ++ [full_command self command])%list.
Proof.
  intros Hk. unfold bind. pose proof (exec_mcp_trace self command tr) as Ht.
  destruct (_exec_mcp self command tr) as [[r|e] tr'].
  - simpl in Ht. rewrite Hk. exact Ht.
  - exact Ht.
Qed.

Lemma response_check_trace label key response tr :
  snd ((_ <- fail_unless_success label response ;;
        _ <- lift (metadata_get response key) ;;
        lift (get response "data" JNull)) tr) = tr.
Proof.
  unfold bind at 1. pose proof (fail_unless_success_trace label response tr) as Ht.
  destruct (fail_unless_success label response tr) as [[u|e] tr'];
    simpl in Ht; subst; [|reflexivity].
  unfold bind, lift. split_matches; reflexivity.
Qed.

Lemma exec_tool_trace self server tool args tr :
  snd (exec_tool self server tool args tr) =
  (tr ++ [full_command self (exec_command server tool args)])%list.
Proof. apply one_call_trace. intros. apply response_check_trace. Qed.

Lemma batch_trace self server operations transactional tr :
  snd (batch self server operations transactional tr) =
  (tr ++ [full_command self (batch_command server operations transactional)])%list.
Proof. apply one_call_trace. intros. apply response_check_trace. Qed.

Lemma discover_trace self task tr :
  snd (discover self task tr) = (tr ++ [full_command self (discover_command task)])%list.
Proof.
  apply one_call_trace. intros r tr'. unfold bind at 1.
  pose proof (fail_unless_success_trace "Discovery failed: " r tr') as Ht.
  destruct (fail_unless_success _ r tr') as [[u|e] tr''];
    simpl in Ht; subst; [|reflexivity].
  unfold bind, lift, ret. split_matches; reflexivity.
Qed.

Lemma fail_unless_success_ok label response success tr :
  get response "success" JNull = Ok success -> truthy success = true ->
  fail_unless_success label response tr = (Ok tt, tr).
Proof.
  intros Hs Ht. unfold fail_unless_success. step Hs. rewrite Ht. reflexivity.
Qed.

Lemma metadata_get_obj response meta key :
  get response "metadata" (JObj []) = Ok (JObj meta) ->
  metadata_get response key = Ok (match assoc key meta with Some x => x | None => JStr "unknown" end).
Proof. intros H. unfold metadata_get. rewrite H. reflexivity. Qed.

(** [load_schemas] on a list of tool names, when the backend answers with
    a successful response. *)
Lemma load_schemas_ok self server names tr out err rc resp success data meta :
  run (full_command self (schema_command server (join " " names))) = ProcDone out err rc ->
  json_loads out = Some resp ->
  get resp "success" JNull = Ok success -> truthy success = true ->
  get resp "metadata" (JObj []) = Ok (JObj meta) ->
  get resp "data" JNull = Ok data ->
  load_schemas self server (JArr (map JStr names)) tr =
  (Ok (normalize_schemas data),
   (tr ++ [full_command self (schema_command server (join " " names))])%list).
Proof.
  intros Hrun Hl Hs Hts Hm Hd. unfold load_schemas.
  assert (Hlen : py_len (JArr (map JStr names)) = Ok (length (map JStr names)))
    by reflexivity.
  step Hlen. step (py_join_strs " " names).
  pose proof (exec_mcp_done self _ tr out err rc Hrun) as He. rewrite Hl in He.
  step He. step (fail_unless_success_ok "Schema loading failed: " resp success
                   (tr ++ [full_command self (schema_command server (join " " names))])%list
                   Hs Hts).
  step Hd. cbv zeta. step (metadata_get_obj resp meta "tokensEstimate" Hm). reflexivity.
Qed.

Lemma string_append_assoc (a b c : string) : (a ++ b) ++ c = a ++ b ++ c.
Proof. induction a as [|x a IH]; simpl; [reflexivity|now rewrite IH]. Qed.

(** ** Claims *)

(** C1 (as amended).  Strategy selection after discovery: when the
    discovery data has a non-empty [matches] sequence and carries a
    suggested batch (an object with a [server] and a list of operation
    names), the run continues by loading the schemas of exactly those
    operations from that server, building the operations and calling
    [batch] with them; when it has a non-empty [matches] and carries no
    suggested batch, the run continues with the match at index 0 of
    [matches] as returned (whatever the confidences of the others),
    loading its schema, inferring its arguments and calling [exec_tool].
    When [matches] is empty (or absent), whatever the suggested batch,
    the run fails with the no-match error before either strategy: the
    discovery command is the only command it has run. *)
Theorem strategy_selection self task tr result tr1 matches sb :
  discover self task tr = (Ok result, tr1) ->
  get result "matches" (JArr []) = Ok matches ->
  get result "suggested_batch" JNull = Ok sb ->
  (truthy matches = true ->
   forall server names,
      subscript sb "server" = Ok server ->
      subscript sb "operations" = Ok (JArr (map JStr names)) ->
      execute_task self task tr =
      (schemas <- load_schemas self server (JArr (map JStr names)) ;;
       batch_ops <- lift (build_batch_ops task schemas (map JStr names)) ;;
       batch self server batch_ops false) tr1) /\
  (forall top rest conf server tool,
      truthy sb = false ->
      matches = JArr (top :: rest) ->
      subscript top "confidence" = Ok conf ->
      subscript top "server" = Ok server ->
      subscript top "tool" = Ok tool ->
      execute_task self task tr =
      (schemas <- load_schemas self server (JArr [tool]) ;;
       schema0 <- lift (index0 (JArr schemas)) ;;
       exec_tool self server tool (infer_arguments tool schema0 task)) tr1) /\
  (truthy matches = false ->
   execute_task self task tr = (Err no_match_error, tr1) /\
   tr1 = (tr ++ [full_command self (discover_command task)])%list).
Proof.
  intros Hd Hm Hsb. split; [|split].
  - intros Htm server names Hsrv Hops.
    exact (execute_task_batch_branch self task tr result tr1 matches sb server names
             Hd Hm Htm Hsb (subscript_ok_truthy _ _ _ Hsrv) Hsrv Hops).
  - intros top rest conf server tool Htsb -> Hc Hs Ht.
    exact (execute_task_single_branch self task tr result tr1 top rest sb conf server tool
             Hd Hm Hsb Htsb Hc Hs Ht).
  - intros Htm. split.
    + unfold execute_task. step Hd. step Hm. rewrite Htm. reflexivity.
    + pose proof (discover_trace self task tr) as Ht. rewrite Hd in Ht. exact Ht.
Qed.

(** C2.  When the discovery data has an empty [matches] sequence (or none
    at all), the run fails with the no-match error right after discovery:
    the discovery command is the only command it has run, so neither the
    schema phase nor the execution phase is reached. *)
Theorem no_match_stops_run self task tr result tr1 :
  discover self task tr = (Ok result, tr1) ->
  get result "matches" (JArr []) = Ok (JArr []) ->
  execute_task self task tr = (Err no_match_error, tr1) /\
  tr1 = (tr ++ [full_command self (discover_command task)])%list.
Proof.
  intros Hd Hm. split.
  - unfold execute_task. step Hd. step Hm. reflexivity.
  - pose proof (discover_trace self task tr) as Ht. rewrite Hd in Ht. exact Ht.
Qed.

(** C3.  A successful schema response (truthy [success], [metadata]
    absent or an object) whose [data] is a single schema object is
    turned into the one-element sequence holding it, and one whose
    [data] is a list is returned as that list, of the same length; in
    particular an empty list gives the empty sequence. *)
Theorem load_schemas_normalizes self server names tr out err rc resp success data meta :
  run (full_command self (schema_command server (join " " names))) = ProcDone out err rc ->
  json_loads out = Some resp ->
  get resp "success" JNull = Ok success -> truthy success = true ->
  get resp "metadata" (JObj []) = Ok (JObj meta) ->
  get resp "data" JNull = Ok data ->
  (forall kvs, data = JObj kvs ->
     exists schemas, fst (load_schemas self server (JArr (map JStr names)) tr) = Ok schemas
                /\ schemas = [JObj kvs] /\ length schemas = 1%nat) /\
  (forall l, data = JArr l ->
     exists schemas, fst (load_schemas self server (JArr (map JStr names)) tr) = Ok schemas
                /\ schemas = l /\ length schemas = length l).
Proof.
  intros Hrun Hl Hs Hts Hm Hd.
  rewrite (load_schemas_ok self server names tr out err rc resp success data meta
             Hrun Hl Hs Hts Hm Hd).
  split; intros x ->; eexists; repeat split.
Qed.


(** C7.  The [transactional] argument of [batch] only fills the flag slot
    of the command ([--transactional] when true, nothing when false,
    the rest of the command being the same); [batch] runs exactly that
    one command whatever the answer, with no retry or replay; and the
    batch branch of [execute_task] calls [batch] with [false]. *)
Theorem batch_transactional_passthrough :
  (forall server operations,
     exists pre suf,
       batch_command server operations true = pre ++ "--transactional" ++ suf /\
       batch_command server operations false = pre ++ suf) /\
  (forall self server operations transactional tr,
     snd (batch self server operations transactional tr) =
     (tr ++ [full_command self (batch_command server operations transactional)])%list) /\
  (forall self task tr result tr1 matches sb server names,
     discover self task tr = (Ok result, tr1) ->
     get result "matches" (JArr []) = Ok matches -> truthy matches = true ->
     get result "suggested_batch" JNull = Ok sb ->
     subscript sb "server" = Ok server ->
     subscript sb "operations" = Ok (JArr (map JStr names)) ->
     execute_task self task tr =
     (schemas <- load_schemas self server (JArr (map JStr names)) ;;
      batch_ops <- lift (build_batch_ops task schemas (map JStr names)) ;;
      batch self server batch_ops false) tr1).
Proof.
  split; [|split].
  - intros server operations.
    exists ("tools batch " ++ py_str server ++ " ").
    exists (" --operations " ++ dq_s ++ escape_quotes (dumps (JArr operations)) ++ dq_s).
    unfold batch_command, tx_flag. rewrite !string_append_assoc. split; reflexivity.
  - apply batch_trace.
  - intros self task tr result tr1 matches sb server names Hd Hm Htm Hsb Hsrv Hops.
    exact (execute_task_batch_branch self task tr result tr1 matches sb server names
             Hd Hm Htm Hsb (subscript_ok_truthy _ _ _ Hsrv) Hsrv Hops).
Qed.

(** C8.  [_exec_mcp] parses the captured stdout whatever the exit status
    and stderr of the command: valid JSON is returned as the response,
    and output [json.loads] rejects raises a [ValueError] whose text
    carries the raw output. *)
Theorem exec_mcp_parses_stdout self command tr out err rc :
  run (full_command self command) = ProcDone out err rc ->
  (forall v, json_loads out = Some v ->
     _exec_mcp self command tr = (Ok v, (tr ++ [full_command self command])%list)) /\
  (json_loads out = None ->
     _exec_mcp self command tr =
     (Err (ValueError ("Failed to parse MCP response: " ++ out)),
      (tr ++ [full_command self command])%list)).
Proof.
  intros Hrun. rewrite (exec_mcp_done self command tr out err rc Hrun).
  split; [intros v ->|intros ->]; reflexivity.
Qed.

(** C9.  Scenario A: discovery answers the task [read the file
    'notes.txt'] with the single match [fs]/[read_file] (confidence 0.9)
    and no suggested batch, and the schema phase answers with one schema.
    Then the schema of [read_file] alone is requested from [fs] and one
    schema is loaded, argument inference extracts the path [notes.txt],
    and the run ends in one [exec_tool] call for [fs], [read_file] and
    [{path: notes.txt}]: its command is the only execution command run. *)
Theorem scenario_A_single_read self tr o1 e1 r1 o2 e2 r2 sch :
  run (full_command self (discover_command task_A)) = ProcDone o1 e1 r1 ->
  json_loads o1 = Some discovery_A ->
  run (full_command self (schema_command (JStr "fs") "read_file")) = ProcDone o2 e2 r2 ->
  json_loads o2 = Some (JObj [("success", JBool true); ("data", JObj sch)]) ->
  load_schemas self (JStr "fs") (JArr [JStr "read_file"])
    (tr ++ [full_command self (discover_command task_A)])%list =
  (Ok [JObj sch], (tr ++ [full_command self (discover_command task_A);
                         full_command self (schema_command (JStr "fs") "read_file")])%list) /\
  (forall schema, infer_arguments (JStr "read_file") schema task_A = args_A) /\
  execute_task self task_A tr =
  exec_tool self (JStr "fs") (JStr "read_file") args_A
    (tr ++ [full_command self (discover_command task_A);
            full_command self (schema_command (JStr "fs") "read_file")])%list /\
  snd (execute_task self task_A tr) =
  (tr ++ [full_command self (discover_command task_A);
          full_command self (schema_command (JStr "fs") "read_file");
          full_command self (exec_command (JStr "fs") (JStr "read_file") args_A)])%list.
Proof.
  intros Hr1 Hl1 Hr2 Hl2.
  set (d := full_command self (discover_command task_A)).
  set (s := full_command self (schema_command (JStr "fs") "read_file")).
  assert (Hd : discover self task_A tr =
               (Ok (JObj [("matches", JArr [match_A])]), (tr ++ [d])%list)).
  { unfold discover. pose proof (exec_mcp_done self _ tr o1 e1 r1 Hr1) as He.
    rewrite Hl1 in He. step He. reflexivity. }
  assert (Hs : load_schemas self (JStr "fs") (JArr [JStr "read_file"]) (tr ++ [d])%list =
               (Ok [JObj sch], (tr ++ [d; s])%list)).
  { change [d; s] with ([d] ++ [s])%list. rewrite (app_assoc tr [d] [s]).
    exact (load_schemas_ok self (JStr "fs") ["read_file"] (tr ++ [d])%list o2 e2 r2 _
             (JBool true) (JObj sch) [] Hr2 Hl2 eq_refl eq_refl eq_refl eq_refl). }
  assert (He : execute_task self task_A tr =
               exec_tool self (JStr "fs") (JStr "read_file") args_A (tr ++ [d; s])%list).
  { rewrite (execute_task_single_branch self task_A tr _ (tr ++ [d])%list match_A [] JNull
               (JFloat (9 # 10)) (JStr "fs") (JStr "read_file")
               Hd eq_refl eq_refl eq_refl eq_refl eq_refl eq_refl).
    step Hs. reflexivity. }
  split; [exact Hs|]. split; [intros; reflexivity|]. split; [exact He|].
  rewrite He, exec_tool_trace, <- app_assoc. reflexivity.
Qed.

(** ** Further properties *)

Lemma escape_quotes_head s c rest :
  escape_quotes s = String c rest -> Ascii.eqb c dq = false.
Proof.
  destruct s as [|x s]; simpl; [discriminate|].
  destruct (Ascii.eqb x dq) eqn:E; intros H; inversion H; subst; [reflexivity|exact E].
Qed.

Lemma unescape_quotes_plain c d r :
  Ascii.eqb d dq = false ->
  unescape_quotes (String c (String d r)) = String c (unescape_quotes (String d r)).
Proof.
  intros H. change (unescape_quotes (String c (String d r))) with
    (if Ascii.eqb c bs && Ascii.eqb d dq then String dq (unescape_quotes r)
     else String c (unescape_quotes (String d r))).
  rewrite H, andb_false_r. reflexivity.
Qed.

Lemma unescape_escape_quotes s : unescape_quotes (escape_quotes s) = s.
Proof.
  induction s as [|c s IH]; [reflexivity|].
  simpl. destruct (Ascii.eqb c dq) eqn:E.
  - apply Ascii.eqb_eq in E. subst. simpl. now rewrite IH.
  - destruct (escape_quotes s) as [|d r] eqn:Hs.
    + simpl in IH. subst. reflexivity.
    + rewrite (unescape_quotes_plain _ _ _ (escape_quotes_head _ _ _ Hs)). now rewrite IH.
Qed.

(** Reading the escaped text from a position that follows any character:
    no double quote is left without its backslash. *)
Lemma escape_quotes_no_bare prev s : no_bare_quote prev (escape_quotes s) = true.
Proof.
  revert prev. induction s as [|c s IH]; intros prev; [reflexivity|].
  simpl. destruct (Ascii.eqb c dq) eqn:E; simpl.
  - rewrite IH. reflexivity.
  - rewrite E, IH. reflexivity.
Qed.

(** X10.  The JSON text of the [--args] of an execution command, and of
    the [--operations] of a batch command, sits between the two double
    quotes that end the command; inside it every double quote directly
    follows a backslash, and dropping those backslashes gives back
    exactly [json.dumps] of the arguments or operations. *)
Theorem command_json_recoverable :
  (forall server tool args,
     exists json_text,
       exec_command server tool args =
       "tools exec " ++ py_str server ++ " " ++ py_str tool ++ " --args "
       ++ dq_s ++ json_text ++ dq_s /\
       no_bare_quote dq json_text = true /\
       unescape_quotes json_text = dumps (JObj args)) /\
  (forall server operations transactional,
     exists json_text,
       batch_command server operations transactional =
       "tools batch " ++ py_str server ++ " " ++ tx_flag transactional ++ " --operations "
       ++ dq_s ++ json_text ++ dq_s /\
       no_bare_quote dq json_text = true /\
       unescape_quotes json_text = dumps (JArr operations)).
Proof.
  split.
  - intros server tool args. exists (escape_quotes (dumps (JObj args))).
    split; [reflexivity|]. split; [apply escape_quotes_no_bare|apply unescape_escape_quotes].
  - intros server operations transactional. exists (escape_quotes (dumps (JArr operations))).
    split; [reflexivity|]. split; [apply escape_quotes_no_bare|apply unescape_escape_quotes].
Qed.

(** X9.  A single-tool run that goes through: once discovery has given a
    top match and no suggested batch, and the schema phase has loaded at
    least one schema, a successful execution response makes [main] print
    its [data] ([None] when absent) and exit with status 0, after the
    execution command built from the first schema's inferred arguments,
    provided the response's [metadata] is absent or an object. *)
Theorem main_single_tool_success prog task rest tr tr1 result top others sb conf server tool
    schemas tr2 out err rc kvs :
  discover default_agent task tr = (Ok result, tr1) ->
  get result "matches" (JArr []) = Ok (JArr (top :: others)) ->
  get result "suggested_batch" JNull = Ok sb -> truthy sb = false ->
  subscript top "confidence" = Ok conf ->
  subscript top "server" = Ok server ->
  subscript top "tool" = Ok tool ->
  load_schemas default_agent server (JArr [tool]) tr1 = (Ok schemas, tr2) ->
  schemas <> [] ->
  run (full_command default_agent
         (exec_command server tool (infer_arguments tool (hd JNull schemas) task)))
    = ProcDone out err rc ->
  json_loads out = Some (JObj kvs) ->
  truthy (match assoc "success" kvs with Some x => x | None => JNull end) = true ->
  (assoc "metadata" kvs = None \/ exists meta, assoc "metadata" kvs = Some (JObj meta)) ->
  let data := match assoc "data" kvs with Some d => d | None => JNull end in
  main (prog :: task :: rest) tr =
  (Ok (Printed data),
   (tr2 ++ [full_command default_agent
              (exec_command server tool (infer_arguments tool (hd JNull schemas) task))])%list)
  /\ exit_status (Printed data) = 0%Z.
Proof.
  intros Hd Hm Hsb Htsb Hc Hs Ht Hload Hne Hrun Hl Hsucc Hmeta data.
  split; [|reflexivity].
  unfold main.
  rewrite (execute_task_single_branch default_agent task tr result tr1 top others sb conf
             server tool Hd Hm Hsb Htsb Hc Hs Ht).
  step Hload. destruct schemas as [|s0 more]; [congruence|].
  step (eq_refl (Ok s0) : index0 (JArr (s0 :: more)) = Ok s0).
  unfold exec_tool. pose proof (exec_mcp_done default_agent _ tr2 out err rc Hrun) as He.
  rewrite Hl in He. step He.
  step (fail_unless_success_ok "Execution failed: " (JObj kvs) _
          (tr2 ++ [full_command default_agent
                     (exec_command server tool (infer_arguments tool (hd JNull (s0 :: more)) task))])%list
          eq_refl Hsucc).
  unfold metadata_get, bind, lift, data.
  destruct Hmeta as [Hmd|[meta Hmd]]; cbn [get]; rewrite Hmd; reflexivity.
Qed.


Lemma fail_unless_success_fails label response success ekvs tr :
  get response "success" JNull = Ok success -> truthy success = false ->
  get response "error" (JObj []) = Ok (JObj ekvs) ->
  fail_unless_success label response tr =
  (Err (RuntimeError (label ++ py_str (match assoc "message" ekvs with
                                       | Some m => m | None => JStr "Unknown error" end))), tr).
Proof.
  intros Hs Ht He. unfold fail_unless_success. step Hs. rewrite Ht. step He. reflexivity.
Qed.

(** X5.  A phase response whose [success] is missing or falsy makes the
    phase raise [RuntimeError] with the phase label followed by [str()]
    of the backend's [error.message], or [Unknown error] when the error
    object has no message; this holds for all four phases, each having
    run its one command. *)
Theorem phase_failure_reports_message self response success ekvs out err rc tr :
  json_loads out = Some response ->
  get response "success" JNull = Ok success -> truthy success = false ->
  get response "error" (JObj []) = Ok (JObj ekvs) ->
  let msg := py_str (match assoc "message" ekvs with
                     | Some m => m | None => JStr "Unknown error" end) in
  (forall task,
     run (full_command self (discover_command task)) = ProcDone out err rc ->
     discover self task tr =
     (Err (RuntimeError ("Discovery failed: " ++ msg)),
      (tr ++ [full_command self (discover_command task)])%list)) /\
  (forall server names,
     run (full_command self (schema_command server (join " " names))) = ProcDone out err rc ->
     load_schemas self server (JArr (map JStr names)) tr =
     (Err (RuntimeError ("Schema loading failed: " ++ msg)),
      (tr ++ [full_command self (schema_command server (join " " names))])%list)) /\
  (forall server tool args,
     run (full_command self (exec_command server tool args)) = ProcDone out err rc ->
     exec_tool self server tool args tr =
     (Err (RuntimeError ("Execution failed: " ++ msg)),
      (tr ++ [full_command self (exec_command server tool args)])%list)) /\
  (forall server operations transactional,
     run (full_command self (batch_command server operations transactional)) =
       ProcDone out err rc ->
     batch self server operations transactional tr =
     (Err (RuntimeError ("Batch execution failed: " ++ msg)),
      (tr ++ [full_command self (batch_command server operations transactional)])%list)).
Proof.
  intros Hl Hs Ht He msg.
  assert (Hcall : forall command,
             run (full_command self command) = ProcDone out err rc ->
             _exec_mcp self command tr = (Ok response, (tr ++ [full_command self command])%list)).
  { intros command Hr. rewrite (exec_mcp_done self command tr out err rc Hr), Hl. reflexivity. }
  split; [|split; [|split]].
  - intros task Hr. unfold discover. step (Hcall _ Hr).
    rewrite (bind_err _ _ _ _ _ (fail_unless_success_fails _ _ _ _ _ Hs Ht He)). reflexivity.
  - intros server names Hr. unfold load_schemas.
    step (eq_refl (Ok (length (map JStr names))) : py_len (JArr (map JStr names)) = _).
    step (py_join_strs " " names). step (Hcall _ Hr).
    rewrite (bind_err _ _ _ _ _ (fail_unless_success_fails _ _ _ _ _ Hs Ht He)). reflexivity.
  - intros server tool args Hr. unfold exec_tool. step (Hcall _ Hr).
    rewrite (bind_err _ _ _ _ _ (fail_unless_success_fails _ _ _ _ _ Hs Ht He)). reflexivity.
  - intros server operations transactional Hr. unfold batch. step (Hcall _ Hr).
    rewrite (bind_err _ _ _ _ _ (fail_unless_success_fails _ _ _ _ _ Hs Ht He)). reflexivity.
Qed.

(** X6.  On a successful execution or batch response, [exec_tool] and
    [batch] return its [data] ([None] when absent) provided [metadata] is
    absent or an object; a present non-object [metadata] raises
    [AttributeError] although the backend reported success. *)
Theorem phase3_success_result self kvs out err rc tr :
  json_loads out = Some (JObj kvs) ->
  truthy (match assoc "success" kvs with Some x => x | None => JNull end) = true ->
  let md := match assoc "metadata" kvs with Some m => m | None => JObj [] end in
  let outcome := match md with
                 | JObj _ => Ok (match assoc "data" kvs with Some d => d | None => JNull end)
                 | _ => Err (AttributeError ("'" ++ type_name md ++ "' object has no attribute 'get'"))
                 end in
  (forall server tool args,
     run (full_command self (exec_command server tool args)) = ProcDone out err rc ->
     exec_tool self server tool args tr =
     (outcome, (tr ++ [full_command self (exec_command server tool args)])%list)) /\
  (forall server operations transactional,
     run (full_command self (batch_command server operations transactional)) =
       ProcDone out err rc ->
     batch self server operations transactional tr =
     (outcome, (tr ++ [full_command self (batch_command server operations transactional)])%list)).
Proof.
  intros Hl Hs md outcome.
  assert (Hcall : forall command,
             run (full_command self command) = ProcDone out err rc ->
             _exec_mcp self command tr = (Ok (JObj kvs), (tr ++ [full_command self command])%list)).
  { intros command Hr. rewrite (exec_mcp_done self command tr out err rc Hr), Hl. reflexivity. }
  assert (Hok : forall label tr', fail_unless_success label (JObj kvs) tr' = (Ok tt, tr'))
    by (intros label tr'; exact (fail_unless_success_ok label (JObj kvs) _ tr' eq_refl Hs)).
  split.
  - intros server tool args Hr. unfold exec_tool. step (Hcall _ Hr). step (Hok "Execution failed: " (tr ++ [full_command self (exec_command server tool args)])%list).
    unfold metadata_get, bind, lift, outcome, md. cbn.
    destruct (assoc "metadata" kvs) as [[]|]; reflexivity.
  - intros server operations transactional Hr. unfold batch. step (Hcall _ Hr).
    step (Hok "Batch execution failed: " (tr ++ [full_command self (batch_command server operations transactional)])%list).
    unfold metadata_get, bind, lift, outcome, md. cbn.
    destruct (assoc "metadata" kvs) as [[]|]; reflexivity.
Qed.

Lemma join_items_non_str i names x rest :
  (forall s, x <> JStr s) ->
  join_items i (map JStr names ++ x :: rest) =
  Err (TypeError ("sequence item " ++ string_of_nat (i + length names)
                  ++ ": expected str instance, " ++ type_name x ++ " found")).
Proof.
  intros Hx. revert i. induction names as [|n names IH]; intros i.
  - simpl. rewrite Nat.add_0_r. destruct x; try reflexivity. exfalso. eapply Hx. reflexivity.
  - simpl. rewrite IH. simpl. rewrite Nat.add_succ_r. reflexivity.
Qed.

(** X7.  [load_schemas] raises before running any command when
    [len(tools)] fails, and when a tool name is not a string: [TypeError]
    naming the index of the first non-string item; the list of commands
    run is unchanged. *)
Theorem load_schemas_rejects_before_running self server tr :
  (forall tools e, py_len tools = Err e -> load_schemas self server tools tr = (Err e, tr)) /\
  (forall names x rest, (forall s, x <> JStr s) ->
     load_schemas self server (JArr (map JStr names ++ x :: rest)) tr =
     (Err (TypeError ("sequence item " ++ string_of_nat (length names)
                      ++ ": expected str instance, " ++ type_name x ++ " found")), tr)).
Proof.
  split.
  - intros tools e H. unfold load_schemas, bind, lift. rewrite H. reflexivity.
  - intros names x rest Hx. unfold load_schemas.
    step (eq_refl (Ok (length (map JStr names ++ x :: rest))) : py_len (JArr (map JStr names ++ x :: rest)) = _).
    unfold bind, lift, py_join. cbn [py_iter]. rewrite (join_items_non_str 0 names x rest Hx).
    reflexivity.
Qed.

Lemma load_schemas_trace self server tools tr r tr' :
  load_schemas self server tools tr = (r, tr') ->
  (tr' = tr /\ exists e, r = Err e) \/
  exists tool_list, tr' = (tr ++ [full_command self (schema_command server tool_list)])%list.
Proof.
  unfold load_schemas. unfold bind at 1 2, lift.
  destruct (py_len tools) as [n|e]; [|intros H; inversion H; subst; eauto].
  destruct (py_join " " tools) as [tl|e]; [|intros H; inversion H; subst; eauto].
  intros H. right. exists tl. rewrite <- (exec_mcp_trace self (schema_command server tl) tr).
  unfold bind in H. destruct (_exec_mcp self (schema_command server tl) tr) as [[v|e] t].
  - simpl. pose proof (fail_unless_success_trace "Schema loading failed: " v t) as Ht.
    destruct (fail_unless_success _ v t) as [[u|e] t']; simpl in Ht; subst t'.
    + unfold lift, ret in H. destruct (get v "data" JNull); [|inversion H; reflexivity].
      cbv zeta in H. destruct (metadata_get v "tokensEstimate"); inversion H; reflexivity.
    + inversion H. reflexivity.
  - inversion H. reflexivity.
Qed.

Ltac atomic_scrutinee2 x :=
  first [ is_var x
        | lazymatch x with
          | get _ _ _ => idtac | subscript _ _ => idtac | py_len _ => idtac
          | truthy _ => idtac | py_iter _ => idtac | build_batch_ops _ _ _ => idtac
          | index0 _ => idtac | negb _ => idtac
          end ].

(** X8.  Whatever the backend answers, a run of [execute_task] issues the
    discovery command first, then at most a schema command and one
    execution command, on the server of the schema command: an
    [exec_tool] command or a non-transactional [batch] command.  No
    command is repeated and no other command is issued. *)
Theorem execute_task_command_sequence self task tr :
  exists rest,
    snd (execute_task self task tr) =
    (tr ++ full_command self (discover_command task) :: rest)%list /\
    (rest = [] \/
     exists server tool_list,
       rest = [full_command self (schema_command server tool_list)] \/
       (exists tool args,
          rest = [full_command self (schema_command server tool_list);
                  full_command self (exec_command server tool args)]) \/
       (exists operations,
          rest = [full_command self (schema_command server tool_list);
                  full_command self (batch_command server operations false)])).
Proof.
  unfold execute_task. unfold bind at 1.
  pose proof (discover_trace self task tr) as Hd.
  destruct (discover self task tr) as [[d|e] tr1]; simpl in Hd; subst tr1.
  2:{ exists []. split; [reflexivity|left; reflexivity]. }
  cbv beta iota.
  cut (forall tr1, exists rest,
          snd ((matches <- lift (get d "matches" (JArr [])) ;;
                if negb (truthy matches) then raise no_match_error
                else
                  suggested_batch <- lift (get d "suggested_batch" JNull) ;;
                  if truthy suggested_batch then
                    server <- lift (subscript suggested_batch "server") ;;
                    operations <- lift (subscript suggested_batch "operations") ;;
                    _ <- lift (py_len operations) ;;
                    schemas <- load_schemas self server operations ;;
                    items <- lift (py_iter operations) ;;
                    batch_ops <- lift (build_batch_ops task schemas items) ;;
                    batch self server batch_ops false
                  else
                    top_match <- lift (index0 matches) ;;
                    _ <- lift (subscript top_match "confidence") ;;
                    server <- lift (subscript top_match "server") ;;
                    tool <- lift (subscript top_match "tool") ;;
                    schemas <- load_schemas self server (JArr [tool]) ;;
                    schema0 <- lift (index0 (JArr schemas)) ;;
                    exec_tool self server tool (infer_arguments tool schema0 task)) tr1) = (tr1 ++ rest)%list /\
          (rest = [] \/
           exists server tool_list,
             rest = [full_command self (schema_command server tool_list)] \/
             (exists tool args,
                rest = [full_command self (schema_command server tool_list);
                        full_command self (exec_command server tool args)]) \/
             (exists operations,
                rest = [full_command self (schema_command server tool_list);
                        full_command self (batch_command server operations false)]))).
  { intros Hk. destruct (Hk (tr ++ [full_command self (discover_command task)])%list)
      as (rest & H1 & H2).
    exists rest. split; [|exact H2]. rewrite H1, <- app_assoc. reflexivity. }
  intros tr1. unfold bind, lift, ret, raise.
  repeat (cbn beta iota zeta;
          match goal with
          | |- context [match load_schemas ?a ?b ?c ?t with _ => _ end] =>
              let H := fresh "Hls" in
              destruct (load_schemas a b c t) as [[?|?] ?] eqn:H;
              apply load_schemas_trace in H
          | |- context [match ?x with _ => _ end] => atomic_scrutinee2 x; destruct x
          end).
  all: try match goal with
           | H : (_ = _ /\ exists e, Ok _ = Err e) \/ _ |- _ =>
               destruct H as [[_ [? ?]]|[? ->]]; [discriminate|]
           | H : (_ = _ /\ exists e, Err _ = Err e) \/ _ |- _ =>
               destruct H as [[-> _]|[? ->]]
           end.
  all: rewrite ?batch_trace, ?exec_tool_trace; cbn [snd].
  all: first [ exists []; rewrite app_nil_r; split; [reflexivity|left; reflexivity]
             | eexists; split; [rewrite <- ?app_assoc; reflexivity|];
               right; eexists _, _;
               first [ left; reflexivity
                     | right; left; eexists _, _; reflexivity
                     | right; right; eexists; reflexivity ] ].
Qed.

(** X11.  When the discovery command cannot be run at all, [main] reports
    [Failed to execute MCP command: ] followed by the runner's message,
    after that single command. *)
Theorem backend_unavailable_exits prog task rest tr msg :
  run (full_command default_agent (discover_command task)) = ProcRaised msg ->
  main (prog :: task :: rest) tr =
  (Ok (Failed ("Failed to execute MCP command: " ++ msg)),
   (tr ++ [full_command default_agent (discover_command task)])%list).
Proof.
  intros Hr.
  assert (He : _exec_mcp default_agent (discover_command task) tr =
               (Err (RuntimeError ("Failed to execute MCP command: " ++ msg)),
                (tr ++ [full_command default_agent (discover_command task)])%list)).
  { unfold _exec_mcp. cbv zeta. rewrite Hr. reflexivity. }
  unfold main, execute_task, discover.
  rewrite (bind_err _ _ _ _ _ (bind_err _ _ _ _ _ He)). reflexivity.
Qed.

Lemma discover_response self task tr out err rc kvs :
  run (full_command self (discover_command task)) = ProcDone out err rc ->
  json_loads out = Some (JObj kvs) ->
  truthy (match assoc "success" kvs with Some x => x | None => JNull end) = true ->
  discover self task tr =
  (result <- lift (get (JObj kvs) "data" (JObj [])) ;;
   matches <- lift (get result "matches" (JArr [])) ;;
   _ <- lift (py_len matches) ;;
   sb <- lift (get result "suggested_batch" JNull) ;;
   _ <- (if truthy sb then
           batch <- lift (subscript result "suggested_batch") ;;
           _ <- lift (subscript batch "server") ;;
           ops <- lift (subscript batch "operations") ;;
           _ <- lift (py_len ops) ;;
           ret tt
         else ret tt) ;;
   _ <- lift (metadata_get (JObj kvs) "tokensEstimate") ;;
   ret result) (tr ++ [full_command self (discover_command task)])%list.
Proof.
  intros Hr Hl Hs. unfold discover.
  pose proof (exec_mcp_done self _ tr out err rc Hr) as He. rewrite Hl in He. step He.
  step (fail_unless_success_ok "Discovery failed: " (JObj kvs) _
          (tr ++ [full_command self (discover_command task)])%list eq_refl Hs).
  reflexivity.
Qed.


(** X13.  [discover] checks the shape of a successful response as it
    reports progress: a [matches] value without a length raises
    [TypeError], and a non-empty suggested batch without [server] or
    without [operations] raises [KeyError] for that key, as does one
    whose operations have no length; nothing is run after the discovery
    command. *)
Theorem discover_rejects_malformed_batch self task tr out err rc kvs dkvs :
  run (full_command self (discover_command task)) = ProcDone out err rc ->
  json_loads out = Some (JObj kvs) ->
  truthy (match assoc "success" kvs with Some x => x | None => JNull end) = true ->
  assoc "data" kvs = Some (JObj dkvs) ->
  let matches := match assoc "matches" dkvs with Some x => x | None => JArr [] end in
  let cmd := full_command self (discover_command task) in
  (forall e, py_len matches = Err e -> discover self task tr = (Err e, (tr ++ [cmd])%list)) /\
  (forall n bkvs, py_len matches = Ok n ->
     assoc "suggested_batch" dkvs = Some (JObj bkvs) -> bkvs <> [] ->
     assoc "server" bkvs = None ->
     discover self task tr = (Err (KeyError "'server'"), (tr ++ [cmd])%list)) /\
  (forall n bkvs server, py_len matches = Ok n ->
     assoc "suggested_batch" dkvs = Some (JObj bkvs) -> bkvs <> [] ->
     assoc "server" bkvs = Some server -> assoc "operations" bkvs = None ->
     discover self task tr = (Err (KeyError "'operations'"), (tr ++ [cmd])%list)) /\
  (forall n bkvs server operations e, py_len matches = Ok n ->
     assoc "suggested_batch" dkvs = Some (JObj bkvs) -> bkvs <> [] ->
     assoc "server" bkvs = Some server -> assoc "operations" bkvs = Some operations ->
     py_len operations = Err e ->
     discover self task tr = (Err e, (tr ++ [cmd])%list)).
Proof.
  intros Hr Hl Hs Hd matches cmd.
  rewrite (discover_response self task tr out err rc kvs Hr Hl Hs).
  assert (Hdata : get (JObj kvs) "data" (JObj []) = Ok (JObj dkvs))
    by (cbn; rewrite Hd; reflexivity).
  step Hdata.
  assert (Hm : get (JObj dkvs) "matches" (JArr []) = Ok matches) by reflexivity.
  step Hm.
  split; [|split; [|split]].
  - intros e He. unfold bind at 1, lift. rewrite He. reflexivity.
  - intros n bkvs Hn Hsb Hne Hsrv. step Hn.
    assert (Hsb' : get (JObj dkvs) "suggested_batch" JNull = Ok (JObj bkvs))
      by (cbn; rewrite Hsb; reflexivity).
    assert (Hb : subscript (JObj dkvs) "suggested_batch" = Ok (JObj bkvs))
      by (cbn; rewrite Hsb; reflexivity).
    step Hsb'. destruct bkvs as [|kv bkvs]; [congruence|].
    unfold bind, lift, ret. rewrite Hb. cbn [truthy length Nat.eqb negb subscript].
    rewrite Hsrv. reflexivity.
  - intros n bkvs server Hn Hsb Hne Hsrv Hops. step Hn.
    assert (Hsb' : get (JObj dkvs) "suggested_batch" JNull = Ok (JObj bkvs))
      by (cbn; rewrite Hsb; reflexivity).
    assert (Hb : subscript (JObj dkvs) "suggested_batch" = Ok (JObj bkvs))
      by (cbn; rewrite Hsb; reflexivity).
    step Hsb'. destruct bkvs as [|kv bkvs]; [congruence|].
    unfold bind, lift, ret. rewrite Hb. cbn [truthy length Nat.eqb negb subscript].
    rewrite Hsrv, Hops. reflexivity.
  - intros n bkvs server operations e Hn Hsb Hne Hsrv Hops Hlen. step Hn.
    assert (Hsb' : get (JObj dkvs) "suggested_batch" JNull = Ok (JObj bkvs))
      by (cbn; rewrite Hsb; reflexivity).
    assert (Hb : subscript (JObj dkvs) "suggested_batch" = Ok (JObj bkvs))
      by (cbn; rewrite Hsb; reflexivity).
    step Hsb'. destruct bkvs as [|kv bkvs]; [congruence|].
    unfold bind, lift, ret. rewrite Hb. cbn [truthy length Nat.eqb negb subscript].
    rewrite Hsrv, Hops. cbv beta iota. rewrite Hlen. reflexivity.
Qed.

End Agent.

(** C6.  [infer_arguments] is a total function: for every tool name,
    schema and task text it returns a mapping, with keys [url],
    [filename] and [fullPage], [path], or none, by tool.  When the task
    text has no URL and no quoted text (the empty text among them) the
    mapping is one of the defaults. *)
Theorem infer_arguments_total_defaults tool_name schema task :
  In (map fst (infer_arguments tool_name schema task))
     [[]; ["url"]; ["filename"; "fullPage"]; ["path"]] /\
  (search_url task = None -> search_quoted task = None ->
   In (infer_arguments tool_name schema task) default_arguments).
Proof.
  unfold infer_arguments, default_arguments.
  destruct (py_eq tool_name (JStr "browser_navigate"));
  [|destruct (py_eq tool_name (JStr "browser_screenshot"));
    [|destruct (py_eq tool_name (JStr "read_file"))]];
  split; simpl; try tauto; intros Hu Hq; rewrite ?Hu, ?Hq; simpl; tauto.
Qed.

(** C10.  The schema passed to [infer_arguments] has no influence on the
    mapping it returns. *)
Theorem infer_arguments_schema_irrelevant tool_name task schema1 schema2 :
  infer_arguments tool_name schema1 task = infer_arguments tool_name schema2 task.
Proof. reflexivity. Qed.

(** ** Further properties of the pure parts *)

Lemma strip_prefix_app p s a : strip_prefix p s = Some a -> s = p ++ a.
Proof.
  revert s. induction p as [|x p IH]; intros s H; simpl in H.
  - now inversion H.
  - destruct s as [|y s]; [discriminate|].
    destruct (Ascii.eqb x y) eqn:E; [|discriminate].
    apply Ascii.eqb_eq in E. subst. simpl. f_equal. now apply IH.
Qed.

Lemma span_nonspace_split s :
  exists post, s = span_nonspace s ++ post /\
    all_chars (fun c => negb (is_space c)) (span_nonspace s) = true /\ ends_run post.
Proof.
  induction s as [|c s IH].
  - exists EmptyString. repeat split. now left.
  - simpl. destruct (is_space c) eqn:E.
    + exists (String c s). repeat split. right. eauto.
    + destruct IH as (post & H1 & H2 & H3). exists post. simpl.
      rewrite E, H2. rewrite <- H1. auto.
Qed.

Lemma url_attempt_sound p s u :
  match strip_prefix p s with
  | Some after => match span_nonspace after with
                  | EmptyString => None
                  | run => Some (p ++ run)
                  end
  | None => None
  end = Some u ->
  exists post run, s = u ++ post /\ u = p ++ run /\ run <> EmptyString /\
    all_chars (fun c => negb (is_space c)) run = true /\ ends_run post.
Proof.
  destruct (strip_prefix p s) as [after|] eqn:Hp; [|discriminate].
  apply strip_prefix_app in Hp.
  destruct (span_nonspace_split after) as (post & H1 & H2 & H3).
  destruct (span_nonspace after) as [|c r] eqn:Hr; [discriminate|].
  intros H; inversion H; subst; clear H.
  exists post, (String c r). repeat split; auto; [|discriminate].
  rewrite string_append_assoc. congruence.
Qed.

Lemma url_at_sound s u :
  url_at s = Some u ->
  exists post scheme run, s = u ++ post /\ u = scheme ++ run /\
    (scheme = "https://" \/ scheme = "http://") /\ run <> EmptyString /\
    all_chars (fun c => negb (is_space c)) run = true /\ ends_run post.
Proof.
  unfold url_at. cbv zeta.
  destruct (match strip_prefix "https://" s with
            | Some after => match span_nonspace after with
                            | EmptyString => None | run => Some ("https://" ++ run) end
            | None => None end) eqn:H1.
  - intros E; inversion E; subst.
    destruct (url_attempt_sound _ _ _ H1) as (post & run & ?). exists post, "https://", run. tauto.
  - intros H2. destruct (url_attempt_sound _ _ _ H2) as (post & run & ?).
    exists post, "http://", run. tauto.
Qed.

(** X1.  The URL [infer_arguments] extracts for [browser_navigate] is a
    piece of the task text made of [https://] or [http://] and a non-empty
    run of non-whitespace characters, which ends at the end of the text
    or at a whitespace character. *)
Theorem search_url_sound task u :
  search_url task = Some u ->
  exists pre post scheme run,
    task = pre ++ u ++ post /\ u = scheme ++ run /\
    (scheme = "https://" \/ scheme = "http://") /\ run <> EmptyString /\
    all_chars (fun c => negb (is_space c)) run = true /\ ends_run post.
Proof.
  induction task as [|c task IH]; intros H; simpl in H.
  - discriminate.
  - destruct (url_at (String c task)) eqn:E.
    + inversion H; subst. destruct (url_at_sound _ _ E) as (post & sch & run & ?).
      exists EmptyString, post, sch, run. tauto.
    + destruct (IH H) as (pre & post & sch & run & H1 & ?).
      exists (String c pre), post, sch, run. rewrite H1. simpl. tauto.
Qed.

Lemma span_nonquote_split s run after :
  span_nonquote s = (run, after) ->
  s = run ++ after /\ all_chars (fun c => negb (is_quote c)) run = true /\
  (after = EmptyString \/ exists c post, after = String c post /\ is_quote c = true).
Proof.
  revert run after. induction s as [|c s IH]; intros run after H; simpl in H.
  - inversion H; subst. repeat split. now left.
  - destruct (is_quote c) eqn:E.
    + inversion H; subst. repeat split. right. eauto.
    + destruct (span_nonquote s) as [r a] eqn:Hs.
      destruct (IH r a eq_refl) as (H1 & H2 & H3). inversion H; subst.
      simpl. rewrite E, H2. auto.
Qed.

(** X2.  The path [infer_arguments] extracts for [read_file] is a
    non-empty piece of the task text without quote characters, enclosed
    in the text by two quote characters (single or double). *)
Theorem search_quoted_sound task p :
  search_quoted task = Some p ->
  p <> EmptyString /\ all_chars (fun c => negb (is_quote c)) p = true /\
  exists pre q1 q2 post, is_quote q1 = true /\ is_quote q2 = true /\
    task = pre ++ String q1 (p ++ String q2 post).
Proof.
  induction task as [|c task IH]; intros H; simpl in H; [discriminate|].
  assert (Hrest : search_quoted task = Some p ->
                  p <> EmptyString /\ all_chars (fun c => negb (is_quote c)) p = true /\
                  exists pre q1 q2 post, is_quote q1 = true /\ is_quote q2 = true /\
                    String c task = pre ++ String q1 (p ++ String q2 post)).
  { intros Hs. destruct (IH Hs) as (A & B & pre & q1 & q2 & post & C & D & E).
    split; [exact A|]. split; [exact B|]. exists (String c pre), q1, q2, post.
    rewrite E. auto. }
  destruct (is_quote c) eqn:Ec; [|exact (Hrest H)].
  destruct (span_nonquote task) as [run after] eqn:Hs.
  destruct run as [|r0 run]; [exact (Hrest H)|].
  destruct after as [|a0 after]; [exact (Hrest H)|].
  inversion H; subst; clear H.
  destruct (span_nonquote_split _ _ _ Hs) as (H1 & H2 & [H3 | (q & post & H3 & H4)]);
    [discriminate|].
  inversion H3; subst. split; [discriminate|]. split; [exact H2|].
  exists EmptyString, c, q, post. repeat split; auto.
Qed.

(** X3.  The schema lookup of the batch path: when every schema has a
    [name], it returns the first schema whose name equals the tool name,
    or [None] when none does; a schema without [name] met before any
    match raises the error of reading its [name]. *)
Theorem find_schema_first schemas t :
  ((forall s, In s schemas -> exists n, subscript s "name" = Ok n) ->
   (find_schema schemas t = Ok JNull /\
    forall s n, In s schemas -> subscript s "name" = Ok n -> py_eq n t = false) \/
   (exists pre s post n, schemas = (pre ++ s :: post)%list /\
      subscript s "name" = Ok n /\ py_eq n t = true /\ find_schema schemas t = Ok s /\
      forall s' n', In s' pre -> subscript s' "name" = Ok n' -> py_eq n' t = false)) /\
  (forall pre s post e, schemas = (pre ++ s :: post)%list ->
   (forall s', In s' pre -> exists n, subscript s' "name" = Ok n /\ py_eq n t = false) ->
   subscript s "name" = Err e -> find_schema schemas t = Err e).
Proof.
  split.
  - induction schemas as [|s0 rest IH]; intros Hn.
    + left. split; [reflexivity|]. intros s n [].
    + destruct (Hn s0 (or_introl eq_refl)) as [n0 Hn0].
      destruct (py_eq n0 t) eqn:E.
      * right. exists [], s0, rest, n0. repeat split; auto.
        -- simpl. rewrite Hn0. simpl. rewrite E. reflexivity.
        -- intros s' n' [].
      * assert (Hf : find_schema (s0 :: rest) t = find_schema rest t)
          by (simpl; rewrite Hn0; simpl; rewrite E; reflexivity).
        rewrite Hf.
        destruct (IH (fun s Hs => Hn s (or_intror Hs))) as [[H1 H2]|(pre & s & post & n & H1 & H2 & H3 & H4 & H5)].
        -- left. split; [exact H1|]. intros s n [<-|Hs] Hsn.
           ++ rewrite Hn0 in Hsn. inversion Hsn. subst. exact E.
           ++ exact (H2 s n Hs Hsn).
        -- right. exists (s0 :: pre), s, post, n. subst rest. repeat split; auto.
           intros s' n' [<-|Hs'] Hsn.
           ++ rewrite Hn0 in Hsn. inversion Hsn. subst. exact E.
           ++ exact (H5 s' n' Hs' Hsn).
  - intros pre s post e ->. induction pre as [|p pre IH]; intros Hpre Hs.
    + simpl. rewrite Hs. reflexivity.
    + destruct (Hpre p (or_introl eq_refl)) as (n & Hp & E).
      simpl. rewrite Hp. simpl. rewrite E.
      apply IH; [|exact Hs]. intros s' Hs'. apply Hpre. right. exact Hs'.
Qed.

Lemma find_schema_named schemas t :
  (forall s, In s schemas -> exists n, subscript s "name" = Ok n) ->
  exists r, find_schema schemas t = Ok r.
Proof.
  induction schemas as [|s0 rest IH]; intros Hn.
  { exists JNull. reflexivity. }
  destruct (Hn s0 (or_introl eq_refl)) as [n0 Hn0]. simpl. rewrite Hn0. simpl.
  destruct (py_eq n0 t); [eauto|]. apply IH. intros s Hs. apply Hn. now right.
Qed.

(** X4.  When every loaded schema has a [name], building the batch
    operations succeeds and gives one operation per tool name, in order,
    each [{tool, args}] with the arguments inferred from the looked-up
    schema (or [None]); missing schemas do not stop the batch. *)
Theorem build_batch_ops_one_per_tool task schemas operations :
  (forall s, In s schemas -> exists n, subscript s "name" = Ok n) ->
  exists batch_ops, build_batch_ops task schemas operations = Ok batch_ops /\
    Forall2 (fun tool op => exists schema, find_schema schemas tool = Ok schema /\
               op = JObj [("tool", tool); ("args", JObj (infer_arguments tool schema task))])
            operations batch_ops.
Proof.
  intros Hn. induction operations as [|t rest IH].
  - exists []. split; [reflexivity|constructor].
  - destruct (find_schema_named schemas t Hn) as [sch Hs].
    destruct IH as (ops & H1 & H2).
    exists (JObj [("tool", t); ("args", JObj (infer_arguments t sch task))] :: ops).
    split.
    + simpl. rewrite Hs. simpl. rewrite H1. reflexivity.
    + constructor; [eauto|exact H2].
Qed.

(** ** Concrete runs *)

(** C1, as stated, fails: a discovery response that carries a suggested
    batch but no match ends the run with the no-match error right after
    discovery; no schema is loaded and [batch] is never called. *)
Lemma strategy_selection_counterexample :
  execute_task float_repr_stub container_str_stub scripted_run
    (scripted_loads discovery_B_no_match schemas_browser exec_done) default_agent task_B [] =
  (Err no_match_error, [full_command default_agent (discover_command task_B)]).
Proof. vm_compute. reflexivity. Qed.

(** The batch branch on a discovery response with one match and a
    suggested batch of two browser operations. *)
Lemma strategy_selection_witness :
  execute_task float_repr_stub container_str_stub scripted_run
    (scripted_loads discovery_B schemas_browser exec_done) default_agent task_B [] =
  (schemas <- load_schemas float_repr_stub container_str_stub scripted_run
                (scripted_loads discovery_B schemas_browser exec_done) default_agent
                (JStr "browser") (JArr (map JStr ["browser_navigate"; "browser_screenshot"])) ;;
   batch_ops <- lift (build_batch_ops task_B schemas
                        (map JStr ["browser_navigate"; "browser_screenshot"])) ;;
   batch float_repr_stub container_str_stub scripted_run
     (scripted_loads discovery_B schemas_browser exec_done) default_agent
     (JStr "browser") batch_ops false)
    [full_command default_agent (discover_command task_B)].
Proof.
  apply (proj1 (strategy_selection float_repr_stub container_str_stub scripted_run
                  (scripted_loads discovery_B schemas_browser exec_done) default_agent task_B []
                  (JObj [("matches", JArr [match_B]); ("suggested_batch", browser_batch)])
                  [full_command default_agent (discover_command task_B)]
                  (JArr [match_B]) browser_batch eq_refl eq_refl eq_refl)
           eq_refl (JStr "browser") ["browser_navigate"; "browser_screenshot"] eq_refl eq_refl).
Defined.

(** A suggested batch without matches: only the discovery command runs. *)
Lemma no_match_stops_run_witness :
  execute_task float_repr_stub container_str_stub scripted_run
    (scripted_loads discovery_B_no_match schemas_browser exec_done) default_agent task_B [] =
  (Err no_match_error, [full_command default_agent (discover_command task_B)]) /\
  [full_command default_agent (discover_command task_B)] =
  ([] ++ [full_command default_agent (discover_command task_B)])%list.
Proof.
  exact (no_match_stops_run float_repr_stub container_str_stub scripted_run
           (scripted_loads discovery_B_no_match schemas_browser exec_done) default_agent task_B []
           (JObj [("matches", JArr []); ("suggested_batch", browser_batch)])
           [full_command default_agent (discover_command task_B)] eq_refl eq_refl).
Defined.

(** A list of two schemas gives a sequence of length two. *)
Lemma load_schemas_normalizes_witness :
  exists schemas,
    fst (load_schemas float_repr_stub container_str_stub scripted_run
           (scripted_loads discovery_B schemas_browser exec_done) default_agent (JStr "browser")
           (JArr (map JStr ["browser_navigate"; "browser_screenshot"])) []) = Ok schemas /\
    schemas = [JObj [("name", JStr "browser_navigate")]; JObj [("name", JStr "browser_screenshot")]] /\
    length schemas = 2%nat.
Proof.
  exact (proj2 (load_schemas_normalizes float_repr_stub container_str_stub scripted_run
                  (scripted_loads discovery_B schemas_browser exec_done) default_agent
                  (JStr "browser") ["browser_navigate"; "browser_screenshot"] []
                  "schema" EmptyString 0%Z schemas_browser (JBool true)
                  (JArr [JObj [("name", JStr "browser_navigate")];
                         JObj [("name", JStr "browser_screenshot")]]) []
                  eq_refl eq_refl eq_refl eq_refl eq_refl eq_refl)
           _ eq_refl).
Defined.



(** C5: on the single-tool path an empty schema list makes [schemas[0]]
    raise [IndexError] before argument inference, and the execution
    command is never run; the batch path looks schemas up with
    [next(..., None)] and gets [None] for a missing one. *)
Theorem single_path_empty_schemas_fails :
  execute_task float_repr_stub container_str_stub scripted_run
    (scripted_loads discovery_A schema_none exec_done) default_agent task_A [] =
  (Err (IndexError "list index out of range"),
   [full_command default_agent (discover_command task_A);
    full_command default_agent (schema_command float_repr_stub container_str_stub
                                  (JStr "fs") "read_file")]) /\
  find_schema [] (JStr "read_file") = Ok JNull.
Proof. split; vm_compute; reflexivity. Qed.

(** The empty task text gives the default path [README.md]. *)
Lemma infer_arguments_total_defaults_witness :
  In (infer_arguments (JStr "read_file") JNull EmptyString) default_arguments.
Proof.
  exact (proj2 (infer_arguments_total_defaults (JStr "read_file") JNull EmptyString)
           eq_refl eq_refl).
Defined.

(** The batch run of scenario B ends in one batch command without the
    transactional flag. *)
Lemma batch_transactional_passthrough_witness :
  execute_task float_repr_stub container_str_stub scripted_run
    (scripted_loads discovery_B schemas_browser exec_done) default_agent task_B [] =
  (schemas <- load_schemas float_repr_stub container_str_stub scripted_run
                (scripted_loads discovery_B schemas_browser exec_done) default_agent
                (JStr "browser") (JArr (map JStr ["browser_navigate"; "browser_screenshot"])) ;;
   batch_ops <- lift (build_batch_ops task_B schemas
                        (map JStr ["browser_navigate"; "browser_screenshot"])) ;;
   batch float_repr_stub container_str_stub scripted_run
     (scripted_loads discovery_B schemas_browser exec_done) default_agent
     (JStr "browser") batch_ops false)
    [full_command default_agent (discover_command task_B)].
Proof.
  exact (proj2 (proj2 (batch_transactional_passthrough float_repr_stub container_str_stub
                         scripted_run (scripted_loads discovery_B schemas_browser exec_done)))
           default_agent task_B []
           (JObj [("matches", JArr [match_B]); ("suggested_batch", browser_batch)])
           [full_command default_agent (discover_command task_B)]
           (JArr [match_B]) browser_batch (JStr "browser")
           ["browser_navigate"; "browser_screenshot"]
           eq_refl eq_refl eq_refl eq_refl eq_refl eq_refl).
Defined.

(** Output that is not JSON, from a command that exited with status 1. *)
Lemma exec_mcp_parses_stdout_witness :
  _exec_mcp (fun _ => ProcDone "not json" "boom" 1%Z) (fun _ => None) default_agent
    "tools list" [] =
  (Err (ValueError "Failed to parse MCP response: not json"),
   [full_command default_agent "tools list"]).
Proof.
  exact (proj2 (exec_mcp_parses_stdout (fun _ => ProcDone "not json" "boom" 1%Z) (fun _ => None)
                  default_agent "tools list" [] "not json" "boom" 1%Z eq_refl) eq_refl).
Defined.

(** Scenario A against the scripted backend. *)
Lemma scenario_A_single_read_witness :
  snd (execute_task float_repr_stub container_str_stub scripted_run
         (scripted_loads discovery_A schema_read_file exec_done) default_agent task_A []) =
  [full_command default_agent (discover_command task_A);
   full_command default_agent (schema_command float_repr_stub container_str_stub
                                 (JStr "fs") "read_file");
   full_command default_agent (exec_command float_repr_stub container_str_stub
                                 (JStr "fs") (JStr "read_file") args_A)].
Proof.
  exact (proj2 (proj2 (proj2 (scenario_A_single_read float_repr_stub container_str_stub
                                scripted_run (scripted_loads discovery_A schema_read_file exec_done)
                                default_agent [] "discover" EmptyString 0%Z
                                "schema" EmptyString 0%Z
                                [("name", JStr "read_file"); ("parameters", JObj [])]
                                eq_refl eq_refl eq_refl eq_refl)))).
Defined.

(** ** Concrete runs of the further properties *)

(** The URL of scenario B. *)
Lemma search_url_sound_witness :
  search_url task_B = Some "https://example.org" /\
  exists pre post scheme run,
    task_B = pre ++ "https://example.org" ++ post /\ "https://example.org" = scheme ++ run /\
    (scheme = "https://" \/ scheme = "http://") /\ run <> EmptyString /\
    all_chars (fun c => negb (is_space c)) run = true /\ ends_run post.
Proof. split; [reflexivity|]. apply search_url_sound. reflexivity. Defined.

(** The quoted path of scenario A. *)
Lemma search_quoted_sound_witness :
  search_quoted task_A = Some "notes.txt" /\
  "notes.txt" <> EmptyString /\ all_chars (fun c => negb (is_quote c)) "notes.txt" = true /\
  exists pre q1 q2 post, is_quote q1 = true /\ is_quote q2 = true /\
    task_A = pre ++ String q1 ("notes.txt" ++ String q2 post).
Proof. split; [reflexivity|]. apply search_quoted_sound. reflexivity. Defined.

(** Looking up [browser_screenshot] among two named schemas. *)
Lemma find_schema_first_witness :
  let schemas := [JObj [("name", JStr "browser_navigate")];
                  JObj [("name", JStr "browser_screenshot")]] in
  (find_schema schemas (JStr "browser_screenshot") = Ok JNull /\
   forall s n, In s schemas -> subscript s "name" = Ok n ->
     py_eq n (JStr "browser_screenshot") = false) \/
  (exists pre s post n, schemas = (pre ++ s :: post)%list /\
     subscript s "name" = Ok n /\ py_eq n (JStr "browser_screenshot") = true /\
     find_schema schemas (JStr "browser_screenshot") = Ok s /\
     forall s' n', In s' pre -> subscript s' "name" = Ok n' ->
       py_eq n' (JStr "browser_screenshot") = false).
Proof.
  intros schemas. apply (proj1 (find_schema_first schemas (JStr "browser_screenshot"))).
  intros s [<-|[<-|[]]]; eexists; reflexivity.
Defined.

(** Two operations with the schema of the second one missing. *)
Lemma build_batch_ops_one_per_tool_witness :
  exists batch_ops,
    build_batch_ops task_B [JObj [("name", JStr "browser_navigate")]]
      [JStr "browser_navigate"; JStr "browser_screenshot"] = Ok batch_ops /\
    Forall2 (fun tool op =>
               exists schema,
                 find_schema [JObj [("name", JStr "browser_navigate")]] tool = Ok schema /\
                 op = JObj [("tool", tool); ("args", JObj (infer_arguments tool schema task_B))])
            [JStr "browser_navigate"; JStr "browser_screenshot"] batch_ops.
Proof.
  apply build_batch_ops_one_per_tool. intros s [<-|[]]. eexists; reflexivity.
Defined.

(** A failed schema response without an error object. *)
Lemma phase_failure_reports_message_witness :
  load_schemas float_repr_stub container_str_stub (fun _ => ProcDone "out" EmptyString 1%Z)
    (fun _ => Some (JObj [("success", JBool false)])) default_agent (JStr "fs")
    (JArr (map JStr ["read_file"])) [] =
  (Err (RuntimeError "Schema loading failed: Unknown error"),
   [full_command default_agent (schema_command float_repr_stub container_str_stub
                                  (JStr "fs") "read_file")]).
Proof.
  exact (proj1 (proj2 (phase_failure_reports_message float_repr_stub container_str_stub
                         (fun _ => ProcDone "out" EmptyString 1%Z)
                         (fun _ => Some (JObj [("success", JBool false)])) default_agent
                         (JObj [("success", JBool false)]) (JBool false) [] "out" EmptyString 1%Z []
                         eq_refl eq_refl eq_refl eq_refl))
           (JStr "fs") ["read_file"] eq_refl).
Defined.

(** A successful execution response whose [metadata] is [null]. *)
Lemma phase3_success_result_witness :
  exec_tool float_repr_stub container_str_stub (fun _ => ProcDone "out" EmptyString 0%Z)
    (fun _ => Some (JObj [("success", JBool true); ("metadata", JNull); ("data", JStr "contents")]))
    default_agent (JStr "fs") (JStr "read_file") args_A [] =
  (Err (AttributeError "'NoneType' object has no attribute 'get'"),
   [full_command default_agent (exec_command float_repr_stub container_str_stub
                                  (JStr "fs") (JStr "read_file") args_A)]).
Proof.
  exact (proj1 (phase3_success_result float_repr_stub container_str_stub
                  (fun _ => ProcDone "out" EmptyString 0%Z)
                  (fun _ => Some (JObj [("success", JBool true); ("metadata", JNull);
                                        ("data", JStr "contents")]))
                  default_agent [("success", JBool true); ("metadata", JNull); ("data", JStr "contents")]
                  "out" EmptyString 0%Z [] eq_refl eq_refl)
           (JStr "fs") (JStr "read_file") args_A eq_refl).
Defined.

(** A tool list whose second item is a number. *)
Lemma load_schemas_rejects_before_running_witness :
  load_schemas float_repr_stub container_str_stub scripted_run (fun _ => None) default_agent
    (JStr "fs") (JArr [JStr "read_file"; JInt 3]) [] =
  (Err (TypeError "sequence item 1: expected str instance, int found"), []).
Proof.
  refine (proj2 (load_schemas_rejects_before_running float_repr_stub container_str_stub
                   scripted_run (fun _ => None) default_agent (JStr "fs") [])
            ["read_file"] (JInt 3) [] _).
  intros s. discriminate.
Defined.


(** A command runner that cannot start the process. *)
Lemma backend_unavailable_exits_witness :
  main float_repr_stub container_str_stub (fun _ => ProcRaised "deno: not found") (fun _ => None)
    ["python-agent.py"; task_A] [] =
  (Ok (Failed "Failed to execute MCP command: deno: not found"),
   [full_command default_agent (discover_command task_A)]).
Proof.
  exact (backend_unavailable_exits float_repr_stub container_str_stub
           (fun _ => ProcRaised "deno: not found") (fun _ => None)
           "python-agent.py" task_A [] [] "deno: not found" eq_refl).
Defined.


(** A suggested batch that lists operations but no server. *)
Lemma discover_rejects_malformed_batch_witness :
  discover float_repr_stub container_str_stub (fun _ => ProcDone "out" EmptyString 0%Z)
    (fun _ => Some (JObj [("success", JBool true);
                          ("data", JObj [("matches", JArr [match_B]);
                                         ("suggested_batch", JObj [("operations", JArr [])])])]))
    default_agent task_B [] =
  (Err (KeyError "'server'"), [full_command default_agent (discover_command task_B)]).
Proof.
  refine (proj1 (proj2 (discover_rejects_malformed_batch float_repr_stub container_str_stub
                          (fun _ => ProcDone "out" EmptyString 0%Z)
                          (fun _ => Some (JObj [("success", JBool true);
                                                ("data", JObj [("matches", JArr [match_B]);
                                                               ("suggested_batch",
                                                                JObj [("operations", JArr [])])])]))
                          default_agent task_B [] "out" EmptyString 0%Z
                          [("success", JBool true);
                           ("data", JObj [("matches", JArr [match_B]);
                                          ("suggested_batch", JObj [("operations", JArr [])])])]
                          [("matches", JArr [match_B]);
                           ("suggested_batch", JObj [("operations", JArr [])])]
                          eq_refl eq_refl eq_refl eq_refl))
            1%nat [("operations", JArr [])] eq_refl eq_refl _ eq_refl).
  discriminate.
Defined.

(** Scenario A through [main], the execution phase answering with data. *)
Lemma main_single_tool_success_witness :
  main float_repr_stub container_str_stub scripted_run
    (scripted_loads discovery_A schema_read_file exec_done)
    ["python-agent.py"; task_A] [] =
  (Ok (Printed (JStr "contents")),
   [full_command default_agent (discover_command task_A);
    full_command default_agent (schema_command float_repr_stub container_str_stub
                                  (JStr "fs") "read_file");
    full_command default_agent (exec_command float_repr_stub container_str_stub
                                  (JStr "fs") (JStr "read_file") args_A)]).
Proof.
  refine (proj1 (main_single_tool_success float_repr_stub container_str_stub scripted_run
                   (scripted_loads discovery_A schema_read_file exec_done)
                   "python-agent.py" task_A [] []
                   [full_command default_agent (discover_command task_A)]
                   (JObj [("matches", JArr [match_A])]) match_A [] JNull (JFloat (9 # 10))
                   (JStr "fs") (JStr "read_file")
                   [JObj [("name", JStr "read_file"); ("parameters", JObj [])]]
                   [full_command default_agent (discover_command task_A);
                    full_command default_agent (schema_command float_repr_stub container_str_stub
                                                  (JStr "fs") "read_file")]
                   "execute" EmptyString 0%Z [("success", JBool true); ("data", JStr "contents")]
                   eq_refl eq_refl eq_refl eq_refl eq_refl eq_refl eq_refl _ _ eq_refl eq_refl
                   eq_refl (or_introl eq_refl))).
  - vm_compute. reflexivity.
  - discriminate.
Defined.
